(** * server.py: a static file server with a port retry loop

    A shallow embedding of [start_server] of [server.py].  The program is
    reactive: it blocks in two library calls, the construction of
    [socketserver.TCPServer] (which binds and listens) and
    [httpd.serve_forever()].  Each of them either returns or raises, and the
    program's reaction to that outcome is a total function [step] on the
    process state.  A run is a list of such outcomes, folded by [run];
    a server that keeps serving is a run that has no further outcome. *)

From Stdlib Require Import ZArith Lia.
From stdpp Require Import base option list strings pretty gmap fin_maps.

Local Open Scope string_scope.
Local Open Scope Z_scope.

(** ** Python values the program handles *)

Module Py.

(** The exception classes the three [except] clauses tell apart.
    [OSError] stands for the class and its subclasses; [errno] is the
    attribute [e.errno] ([None] when the exception was built without
    one) and [text] is [str(e)].  [OtherException] is any other subclass
    of [Exception], with its [str(e)]. *)
Inductive exn : Type :=
| OSError (errno : option Z) (text : string)
| KeyboardInterrupt
| OtherException (text : string).

(** [isinstance(e, Exception)]: [KeyboardInterrupt] derives from
    [BaseException] only. *)
Definition is_Exception (e : exn) : bool :=
  match e with
  | OSError _ _ => true
  | KeyboardInterrupt => false
  | OtherException _ => true
  end.

(** [str(e)], as the f-string [{e}] renders it. *)
Definition str (e : exn) : string :=
  match e with
  | OSError _ text => text
  | KeyboardInterrupt => ""
  | OtherException text => text
  end.

(** [OSError(errno, strerror)] as the socket module raises it: its
    [str] is ["[Errno <errno>] <strerror>"]. *)
Definition os_error (errno : Z) (strerror : string) : exn :=
  OSError (Some errno) ("[Errno " +:+ pretty errno +:+ "] " +:+ strerror).

(** The outcome of a blocking library call. *)
Inductive outcome : Type :=
| Returned
| Raised (e : exn).

(** [d.update(other)]: the entries of [other] win. *)
Definition dict_update (d other : gmap string string) : gmap string string :=
  other ∪ d.

End Py.
Export Py.

(** ** Process state *)

(** Where the control of the process is. *)
Inductive phase : Type :=
| Binding                (* at the head of [while True], about to build the TCPServer *)
| Serving                (* inside the [with] block, blocked in [serve_forever] *)
| Exited (status : Z)    (* [sys.exit(status)] has ended the process *)
| Crashed (e : exn).     (* an exception left [start_server] uncaught *)

Record state : Type := mkState {
  port : Z;                              (* the local variable [port] *)
  listener : option Z;                   (* the port the open TCPServer was created on, if one is open *)
  stdout : list string;                  (* the arguments of the [print] calls, oldest first *)
  extensions_map : gmap string string;   (* SimpleHTTPRequestHandler.extensions_map, a class attribute *)
  pc : phase
}.

Definition set_port (p : Z) (s : state) : state :=
  mkState p (listener s) (stdout s) (extensions_map s) (pc s).

Definition set_listener (l : option Z) (s : state) : state :=
  mkState (port s) l (stdout s) (extensions_map s) (pc s).

Definition set_extensions_map (m : gmap string string) (s : state) : state :=
  mkState (port s) (listener s) (stdout s) m (pc s).

Definition set_pc (c : phase) (s : state) : state :=
  mkState (port s) (listener s) (stdout s) (extensions_map s) c.

(** [print(line)] *)
Definition print (line : string) (s : state) : state :=
  mkState (port s) (listener s) (stdout s ++ [line]) (extensions_map s) (pc s).

(** A process that has just started: nothing printed, no listener, the
    handler class carrying the host's default table. *)
Definition boot (host_map : gmap string string) : state :=
  mkState 0 None [] host_map Binding.

(** ** The lines the program prints *)

Definition started_line (p : Z) : string :=
  "Server started at http://localhost:" +:+ pretty p.

(** Printed after [port += 1], so [p] here is the new value of [port]. *)
Definition in_use_line (p : Z) : string :=
  "Port " +:+ pretty (p - 1) +:+ " is in use, trying port " +:+ pretty p.

Definition shutdown_line : string :=
  String (Ascii.ascii_of_nat 10) "Shutting down server...".

Definition error_line (e : exn) : string :=
  "Error starting server: " +:+ str e.

(** ** start_server *)

(** How control leaves an [except] clause of the inner [try]. *)
Inductive signal : Type :=
| Continue            (* the clause finished; the loop goes on *)
| Reraise (e : exn)   (* the exception travels on to the outer [try] *)
| SysExit (status : Z).

(** The test [e.errno == 48]. *)
Definition errno_is_48 (errno : option Z) : bool :=
  match errno with
  | Some n => n =? 48
  | None => false
  end.

(** The [except] clauses of the inner [try], lines 18-26. *)
Definition inner_except (e : exn) (s : state) : state * signal :=
  match e with
  | OSError errno _ =>
      if errno_is_48 errno
      then let s1 := set_port (port s + 1) s in
           (print (in_use_line (port s1)) s1, Continue)
      else (s, Reraise e)
  | KeyboardInterrupt =>
      (print shutdown_line s, SysExit 0)
  | OtherException _ => (s, Reraise e)
  end.

(** The [except Exception] clause of the outer [try], lines 27-29. *)
Definition outer_except (e : exn) (s : state) : state :=
  if is_Exception e
  then set_pc (Exited 1) (print (error_line e) s)
  else set_pc (Crashed e) s.

(** An exception raised inside the inner [try]. *)
Definition handle (e : exn) (s : state) : state :=
  match inner_except e s with
  | (s', Continue) => set_pc Binding s'
  | (s', Reraise e') => outer_except e' s'
  | (s', SysExit status) => set_pc (Exited status) s'
  end.

(** Leaving the [with] block closes the server. *)
Definition server_close (s : state) : state := set_listener None s.

(** The reaction of the process to the outcome of the call it is blocked
    in.  In [Binding] that call is [socketserver.TCPServer(("", port),
    handler)]; in [Serving] it is [httpd.serve_forever()]. *)
Definition step (o : outcome) (s : state) : state :=
  match pc s with
  | Binding =>
      match o with
      | Returned =>
          set_pc Serving (print (started_line (port s)) (set_listener (Some (port s)) s))
      | Raised e => handle e s
      end
  | Serving =>
      match o with
      | Returned => set_pc Binding (server_close s)
      | Raised e => handle e (server_close s)
      end
  | Exited _ => s
  | Crashed _ => s
  end.

Definition run (os : list outcome) (s : state) : state :=
  fold_left (fun st o => step o st) os s.

(** Lines 8-11: [handler] is the class itself, so the update lands in the
    class attribute. *)
Definition configure_handler (s : state) : state :=
  set_extensions_map
    (dict_update (extensions_map s) {[ ".js" := "application/javascript" ]}) s.

(** [start_server(port)] up to its first blocking call. *)
Definition start_server (p : Z) (s : state) : state :=
  set_pc Binding (set_port p (configure_handler s)).

(** The default value of the parameter, [def start_server(port=8000)]. *)
Definition default_port : Z := 8000.

Definition call_start_server (arg : option Z) (s : state) : state :=
  start_server (default default_port arg) s.

(** The [__main__] block: [sys.argv] is never read. *)
Definition main (argv : list string) (host_map : gmap string string) : state :=
  call_start_server None (boot host_map).

(** ** Request handlers *)

(** A request handler object.  The server builds one per request from the
    class it was given; [http.server] never assigns [extensions_map] on
    the object, so [own_extensions_map] is [None] for every handler the
    server creates. *)
Record handler_instance : Type := mkHandler {
  own_extensions_map : option (gmap string string)
}.

Definition new_handler : handler_instance := mkHandler None.

(** Attribute lookup [self.extensions_map]: the object first, then its
    class. *)
Definition self_extensions_map (s : state) (h : handler_instance)
  : gmap string string :=
  default (extensions_map s) (own_extensions_map h).

(** Modelled from the spec: the per-request choice of the Content-Type,
    which the program leaves to the library's handler.  The type is
    derived from the file's extension through the mapping, with a generic
    binary type for an extension the mapping does not have. *)
Definition content_type (m : gmap string string) (ext : string) : string :=
  default "application/octet-stream" (m !! ext).

(** ** The host: platform and ports *)

(** The number the platform gives to EADDRINUSE. *)
Record platform : Type := mkPlatform {
  EADDRINUSE : Z
}.

Definition darwin : platform := mkPlatform 48.
Definition linux : platform := mkPlatform 98.

(** What [bind] raises on a port that another process holds. *)
Definition address_in_use (plat : platform) : exn :=
  os_error (EADDRINUSE plat) "Address already in use".

(** EACCES, binding a privileged port without the privilege. *)
Definition permission_denied : exn :=
  os_error 13 "Permission denied".

(** What [bind] raises on a port outside 0..65535 (an OverflowError). *)
Definition port_out_of_range : exn :=
  OtherException "bind(): port must be 0-65535.".

Record world : Type := mkWorld {
  plat : platform;
  busy : Z -> bool      (* the ports other processes hold *)
}.

(** The outcome of [TCPServer(("", p), handler)] in a world. *)
Definition bind_outcome (w : world) (p : Z) : outcome :=
  if (p <? 0) || (65535 <? p) then Raised port_out_of_range
  else if busy w p then Raised (address_in_use (plat w))
  else Returned.

(** The bind-retry loop run against a world: bind attempts go on while
    the process is at the head of the loop. *)
Fixpoint bind_loop (w : world) (fuel : nat) (s : state) : state :=
  match fuel with
  | O => s
  | S fuel' =>
      match pc s with
      | Binding => bind_loop w fuel' (step (bind_outcome w (port s)) s)
      | _ => s
      end
  end.

(** The diagnostics of [k] consecutive retries that start with [p] busy. *)
Fixpoint retry_lines (p : Z) (k : nat) : list string :=
  match k with
  | O => []
  | S k' => in_use_line (p + 1) :: retry_lines (p + 1) k'
  end.

(** In every phase but [Serving] no listener is open; in [Serving] the
    open listener is the one bound to the current [port]. *)
Definition coherent (s : state) : Prop :=
  match pc s with
  | Serving => listener s = Some (port s)
  | _ => listener s = None
  end.

(** Only one listener at port 8000 is taken. *)
Definition only_8000_busy : Z -> bool := fun p => p =? 8000.

(** The retry diagnostics among the lines printed so far. *)
Definition is_in_use_line (line : string) : bool := String.prefix "Port " line.

Definition in_use_lines (out : list string) : list string :=
  List.filter is_in_use_line out.

(** The state the retry branch leaves, with [l] the listener field. *)
Definition handle_retry (l : option Z) (s : state) : state :=
  mkState (port s + 1) l (stdout s ++ [in_use_line (port s + 1)])
          (extensions_map s) Binding.

(** What the last printed line says about where the process is: while
    serving it is the started line of the current port, after an exit it
    is the shutdown line (status 0) or an error line (status 1). *)
Definition announced (s : state) : Prop :=
  match pc s with
  | Binding => True
  | Serving => last (stdout s) = Some (started_line (port s))
  | Exited status =>
      (status = 0 /\ last (stdout s) = Some shutdown_line) \/
      (status = 1 /\
       exists e, is_Exception e = true /\ last (stdout s) = Some (error_line e))
  | Crashed _ => False
  end.

(** [k] listener creations in a row that fail with errno 48. *)
Definition failures_48 (k : nat) (text : string) : list outcome :=
  replicate k (Raised (OSError (Some 48) text)).

(** * Properties *)

(** ** Basic facts about [step] and [run] *)

Lemma run_nil (s : state) : run [] s = s.
Proof. reflexivity. Qed.

Lemma run_cons (o : outcome) (os : list outcome) (s : state) :
  run (o :: os) s = run os (step o s).
Proof. reflexivity. Qed.

Lemma run_app (os1 os2 : list outcome) (s : state) :
  run (os1 ++ os2) s = run os2 (run os1 s).
Proof. unfold run. apply fold_left_app. Qed.

Lemma errno_is_48_true (errno : option Z) :
  errno_is_48 errno = true <-> errno = Some 48.
Proof.
  destruct errno as [n|]; simpl.
  - rewrite Z.eqb_eq. split; congruence.
  - split; discriminate.
Qed.

Lemma errno_is_48_false (errno : option Z) :
  errno_is_48 errno = false <-> errno <> Some 48.
Proof.
  rewrite <- errno_is_48_true. destruct (errno_is_48 errno); split; congruence.
Qed.

(** The three ways [handle] can go. *)
Lemma handle_in_use (text : string) (s : state) :
  handle (OSError (Some 48) text) s =
  mkState (port s + 1) (listener s) (stdout s ++ [in_use_line (port s + 1)])
          (extensions_map s) Binding.
Proof. reflexivity. Qed.

Lemma handle_interrupt (s : state) :
  handle KeyboardInterrupt s =
  mkState (port s) (listener s) (stdout s ++ [shutdown_line])
          (extensions_map s) (Exited 0).
Proof. reflexivity. Qed.

Lemma handle_fatal (e : exn) (s : state) :
  is_Exception e = true ->
  (forall text, e <> OSError (Some 48) text) ->
  handle e s =
  mkState (port s) (listener s) (stdout s ++ [error_line e])
          (extensions_map s) (Exited 1).
Proof.
  intros Hexc Hne. destruct e as [errno text| |text]; try discriminate.
  - unfold handle, inner_except.
    assert (errno_is_48 errno = false) as ->.
    { apply errno_is_48_false. intros ->. by apply (Hne text). }
    reflexivity.
  - reflexivity.
Qed.

(** Every exception is dealt with inside [start_server]: the process never
    ends with a traceback. *)
Lemma handle_never_crashes (e e' : exn) (s : state) :
  pc (handle e s) <> Crashed e'.
Proof.
  destruct e as [errno text| |text]; try discriminate.
  unfold handle, inner_except. destruct (errno_is_48 errno); discriminate.
Qed.

Lemma handle_extensions_map (e : exn) (s : state) :
  extensions_map (handle e s) = extensions_map s.
Proof.
  destruct e as [errno text| |text]; try reflexivity.
  unfold handle, inner_except. destruct (errno_is_48 errno); reflexivity.
Qed.

Lemma step_extensions_map (o : outcome) (s : state) :
  extensions_map (step o s) = extensions_map s.
Proof.
  unfold step. destruct (pc s), o; try reflexivity;
    by rewrite handle_extensions_map.
Qed.

Lemma run_extensions_map (os : list outcome) (s : state) :
  extensions_map (run os s) = extensions_map s.
Proof.
  revert s. induction os as [|o os IH]; intros s; [done|].
  rewrite run_cons, IH. apply step_extensions_map.
Qed.

(** A process that has ended stays as it is. *)
Lemma step_exited (o : outcome) (s : state) (status : Z) :
  pc s = Exited status -> step o s = s.
Proof. intros H. unfold step. by rewrite H. Qed.

Lemma run_exited (os : list outcome) (s : state) (status : Z) :
  pc s = Exited status -> run os s = s.
Proof.
  intros H. induction os as [|o os IH]; [done|].
  by rewrite run_cons, (step_exited o s status H).
Qed.

(** [handle] never leaves a listener open that was not open before, and
    ends in the loop head or in an exit. *)
Lemma handle_coherent (e : exn) (s : state) :
  listener s = None -> coherent (handle e s).
Proof.
  intros Hl. destruct e as [errno text| |text]; try exact Hl.
  unfold handle, inner_except. destruct (errno_is_48 errno); exact Hl.
Qed.

Lemma step_coherent (o : outcome) (s : state) :
  coherent s -> coherent (step o s).
Proof.
  unfold coherent at 1, step. destruct (pc s) eqn:Hpc; intros Hl.
  - destruct o; [reflexivity | by apply handle_coherent].
  - destruct o; [reflexivity | by apply handle_coherent].
  - unfold coherent. by rewrite Hpc.
  - unfold coherent. by rewrite Hpc.
Qed.

Lemma run_coherent (os : list outcome) (s : state) :
  coherent s -> coherent (run os s).
Proof.
  revert s. induction os as [|o os IH]; intros s Hs; [done|].
  rewrite run_cons. by apply IH, step_coherent.
Qed.

Lemma start_server_coherent (p : Z) (s : state) :
  listener s = None -> coherent (start_server p s).
Proof. intros H. exact H. Qed.


(** ** The bind attempt *)

(** X1: a listener creation that fails with errno 48 is answered by the
    retry branch: the port goes up by one, the one line printed is "Port
    <old> is in use, trying port <new>", no listener is opened and the
    process is back at the head of the loop. *)
Lemma errno_48_retries (s : state) (text : string) :
  pc s = Binding ->
  step (Raised (OSError (Some 48) text)) s =
  mkState (port s + 1) (listener s)
          (stdout s ++ ["Port " +:+ pretty (port s) +:+
                        " is in use, trying port " +:+ pretty (port s + 1)])
          (extensions_map s) Binding.
Proof.
  intros Hpc. unfold step. rewrite Hpc, handle_in_use.
  unfold in_use_line. by rewrite Z.add_simpl_r.
Qed.

(** C1, evaluated where it fails.  On Linux the address-in-use error of
    [bind] carries errno 98.  With port 8000 held by another process the
    first bind attempt of the program ends the process with status 1,
    after the fatal message; no diagnostic of the form "Port 8000 is in
    use, trying port 8001" is printed, the port stays 8000 and no second
    bind is attempted. *)
Theorem address_in_use_on_linux_is_fatal :
  let s := step (Raised (address_in_use linux)) (main [] ∅) in
  pc s = Exited 1 /\
  port s = 8000 /\
  stdout s = ["Error starting server: [Errno 98] Address already in use"] /\
  forall os, run os s = s.
Proof.
  cbv zeta. repeat split.
  intros os. by apply (run_exited os _ 1).
Qed.

(** C2: the address-in-use test is the comparison of [e.errno] with the
    literal 48, and nothing else.  An OSError raised by the listener
    creation whose errno is 48 takes the retry branch: the port goes up by
    one, the retry diagnostic is printed and the loop goes on.  An OSError
    whose errno is not 48 (no errno at all included) is re-raised by the
    inner handler and reaches the outer one: the line "Error starting
    server: <message>" is printed and the process exits with status 1,
    the port unchanged and no further bind attempted.  The second case
    covers the address-in-use error of every platform whose EADDRINUSE is
    not 48. *)
Theorem other_errno_is_fatal (s : state) (errno : option Z) (text : string) :
  pc s = Binding ->
  (errno_is_48 errno = true <-> errno = Some 48) /\
  (errno = Some 48 ->
     inner_except (OSError errno text) s =
       (mkState (port s + 1) (listener s)
                (stdout s ++ ["Port " +:+ pretty (port s) +:+
                              " is in use, trying port " +:+ pretty (port s + 1)])
                (extensions_map s) (pc s),
        Continue) /\
     step (Raised (OSError errno text)) s =
       mkState (port s + 1) (listener s)
               (stdout s ++ ["Port " +:+ pretty (port s) +:+
                             " is in use, trying port " +:+ pretty (port s + 1)])
               (extensions_map s) Binding) /\
  (errno <> Some 48 ->
     inner_except (OSError errno text) s = (s, Reraise (OSError errno text)) /\
     step (Raised (OSError errno text)) s =
       mkState (port s) (listener s)
               (stdout s ++ ["Error starting server: " +:+ text])
               (extensions_map s) (Exited 1) /\
     (forall os, run os (step (Raised (OSError errno text)) s) =
                 step (Raised (OSError errno text)) s)) /\
  (forall pf : platform, EADDRINUSE pf <> 48 ->
     pc (step (Raised (address_in_use pf)) s) = Exited 1 /\
     port (step (Raised (address_in_use pf)) s) = port s).
Proof.
  intros Hpc.
  assert (Hfatal : forall n t, n <> Some 48 ->
            step (Raised (OSError n t)) s =
            mkState (port s) (listener s)
                    (stdout s ++ ["Error starting server: " +:+ t])
                    (extensions_map s) (Exited 1)).
  { intros n t Hn. unfold step. rewrite Hpc. apply handle_fatal; [done|].
    intros t' [= -> _]. by apply Hn. }
  split; [apply errno_is_48_true|]. split; [|split].
  - intros ->. split.
    + unfold inner_except, in_use_line, print, set_port. simpl.
      by rewrite Z.add_simpl_r.
    + unfold step. rewrite Hpc, handle_in_use.
      unfold in_use_line. by rewrite Z.add_simpl_r.
  - intros Hne. split; [|split].
    + unfold inner_except. by apply errno_is_48_false in Hne as ->.
    + by apply Hfatal.
    + intros os. rewrite (Hfatal _ _ Hne). by apply (run_exited os _ 1).
  - intros pf Hpf. unfold address_in_use, os_error.
    rewrite Hfatal; [done|]. intros [= ?]. by apply Hpf.
Qed.

Lemma other_errno_is_fatal_witness :
  step (Raised (os_error 98 "Address already in use")) (main [] ∅) =
    mkState 8000 None
            ["Error starting server: [Errno 98] Address already in use"]
            (extensions_map (main [] ∅)) (Exited 1) /\
  step (Raised (os_error 48 "Address already in use")) (main [] ∅) =
    mkState 8001 None ["Port 8000 is in use, trying port 8001"]
            (extensions_map (main [] ∅)) Binding.
Proof.
  split.
  - apply (other_errno_is_fatal (main [] ∅) (Some 98)
             "[Errno 98] Address already in use" eq_refl).
    discriminate.
  - apply (other_errno_is_fatal (main [] ∅) (Some 48)
             "[Errno 48] Address already in use" eq_refl).
    reflexivity.
Defined.

(** C5: a listener creation that fails with an exception (a subclass of
    [Exception]) that the program does not take for address-in-use, such
    as the permission error of a privileged port, prints "Error starting
    server: <message>" and ends the process with status 1. *)
Theorem startup_failure_is_fatal (s : state) (e : exn) :
  pc s = Binding ->
  is_Exception e = true ->
  (forall text, e <> OSError (Some 48) text) ->
  step (Raised e) s =
  mkState (port s) (listener s)
          (stdout s ++ ["Error starting server: " +:+ str e])
          (extensions_map s) (Exited 1).
Proof.
  intros Hpc Hexc Hne. unfold step. rewrite Hpc. by apply handle_fatal.
Qed.

Lemma startup_failure_is_fatal_witness :
  step (Raised permission_denied) (start_server 80 (boot ∅)) =
  mkState 80 None ["Error starting server: [Errno 13] Permission denied"]
          (extensions_map (start_server 80 (boot ∅))) (Exited 1).
Proof.
  apply (startup_failure_is_fatal (start_server 80 (boot ∅)) permission_denied);
    [reflexivity | reflexivity | discriminate].
Defined.

(** C7: when the listener creation succeeds on port P, the one line
    printed is "Server started at http://localhost:P", the open listener
    is the one bound to P, the port is unchanged and the process is in
    the serve loop. *)
Theorem bind_success_reports_port (s : state) :
  pc s = Binding ->
  step Returned s =
  mkState (port s) (Some (port s))
          (stdout s ++ ["Server started at http://localhost:" +:+ pretty (port s)])
          (extensions_map s) Serving.
Proof. intros Hpc. unfold step. by rewrite Hpc. Qed.

Lemma bind_success_reports_port_witness :
  step Returned (main [] ∅) =
  mkState 8000 (Some 8000) ["Server started at http://localhost:8000"]
          (extensions_map (main [] ∅)) Serving.
Proof. apply (bind_success_reports_port (main [] ∅)). reflexivity. Defined.

(** ** Interrupt *)

(** C4: an interrupt that arrives while the server is serving closes the
    listener, prints the shutdown line (a newline followed by "Shutting
    down server...") and nothing else, and ends the process with status
    0; the process then stays exited with status 0. *)
Theorem interrupt_exits_cleanly (s : state) :
  pc s = Serving ->
  step (Raised KeyboardInterrupt) s =
    mkState (port s) None
            (stdout s ++ [String (Ascii.ascii_of_nat 10) "Shutting down server..."])
            (extensions_map s) (Exited 0) /\
  forall os, pc (run os (step (Raised KeyboardInterrupt) s)) = Exited 0.
Proof.
  intros Hpc.
  assert (Hstep : step (Raised KeyboardInterrupt) s =
            mkState (port s) None (stdout s ++ [shutdown_line])
                    (extensions_map s) (Exited 0)).
  { unfold step. by rewrite Hpc. }
  split; [exact Hstep|].
  intros os. rewrite Hstep. by rewrite (run_exited os _ 0).
Qed.

Lemma interrupt_exits_cleanly_witness :
  pc (run [Returned; Raised KeyboardInterrupt] (main [] ∅)) = Exited 0.
Proof.
  apply (proj2 (interrupt_exits_cleanly (step Returned (main [] ∅)) eq_refl) []).
Defined.

(** ** The port variable *)




(** ** The entry point *)

(** C9: the [__main__] block calls [start_server()] whatever the command
    line is, the parameter takes its default 8000, and the process reaches
    its first bind attempt with port 8000, nothing printed and no listener
    open; a successful first attempt opens the listener on 8000. *)
Theorem main_first_bind_on_8000 (argv : list string) (host_map : gmap string string) :
  main argv host_map = start_server 8000 (boot host_map) /\
  port (main argv host_map) = 8000 /\
  pc (main argv host_map) = Binding /\
  stdout (main argv host_map) = [] /\
  listener (main argv host_map) = None /\
  listener (step Returned (main argv host_map)) = Some 8000.
Proof. repeat split. Qed.

(** ** The extension table *)

Lemma configure_handler_js (s : state) :
  extensions_map (configure_handler s) =
  <[ ".js" := "application/javascript" ]> (extensions_map s).
Proof.
  unfold configure_handler, dict_update. simpl.
  symmetry. apply insert_union_singleton_l.
Qed.

Lemma start_server_extensions_map (p : Z) (s : state) :
  extensions_map (start_server p s) =
  <[ ".js" := "application/javascript" ]> (extensions_map s).
Proof. unfold start_server. simpl. apply configure_handler_js. Qed.

(** C3: from the moment [start_server] has configured the handler class,
    hence in every state in which a request can be served, the table
    maps ".js" to "application/javascript" whatever the host's table was,
    and the Content-Type chosen for a file of extension ".js" by a handler
    the server creates is "application/javascript". *)
Theorem js_served_as_javascript (p : Z) (s0 : state) (os : list outcome) :
  let s := run os (start_server p s0) in
  extensions_map s !! ".js" = Some "application/javascript" /\
  content_type (self_extensions_map s new_handler) ".js" = "application/javascript".
Proof.
  cbv zeta.
  assert (H : extensions_map (run os (start_server p s0)) !! ".js"
              = Some "application/javascript").
  { rewrite run_extensions_map, start_server_extensions_map.
    apply lookup_insert_eq. }
  split; [exact H|].
  unfold content_type, self_extensions_map. simpl. by rewrite H.
Qed.

(** C10: the configuration step leaves the entry of every extension
    other than ".js" as it was, in [start_server] and for the rest of the
    run; the table it writes to is the class attribute, which is the table
    every handler the server creates reads. *)
Theorem configuration_changes_only_js
    (p : Z) (s0 : state) (os : list outcome) (ext : string) :
  ext <> ".js" ->
  extensions_map (start_server p s0) !! ext = extensions_map s0 !! ext /\
  extensions_map (run os (start_server p s0)) !! ext = extensions_map s0 !! ext /\
  self_extensions_map (run os (start_server p s0)) new_handler =
    <[ ".js" := "application/javascript" ]> (extensions_map s0).
Proof.
  intros Hne. split; [|split].
  - rewrite start_server_extensions_map. by apply lookup_insert_ne.
  - rewrite run_extensions_map, start_server_extensions_map.
    by apply lookup_insert_ne.
  - unfold self_extensions_map. simpl.
    by rewrite run_extensions_map, start_server_extensions_map.
Qed.

Lemma configuration_changes_only_js_witness :
  extensions_map
    (start_server 8000
       (boot {[ ".html" := "text/html"; ".js" := "text/javascript" ]}))
    !! ".html" = Some "text/html".
Proof.
  pose proof (configuration_changes_only_js 8000
    (boot {[ ".html" := "text/html"; ".js" := "text/javascript" ]}) []
    ".html") as H.
  destruct H as [H _]; [discriminate|].
  rewrite H. reflexivity.
Defined.

(** ** The retry loop against a host *)

Lemma bind_loop_stops (w : world) (fuel : nat) (s : state) :
  pc s <> Binding -> bind_loop w fuel s = s.
Proof. intros H. destruct fuel; [done|]. simpl. by destruct (pc s). Qed.

Lemma bind_loop_step (w : world) (fuel : nat) (s : state) :
  pc s = Binding ->
  bind_loop w (S fuel) s = bind_loop w fuel (step (bind_outcome w (port s)) s).
Proof. intros H. simpl. by rewrite H. Qed.

Lemma bind_outcome_busy (w : world) (p : Z) :
  0 <= p <= 65535 -> busy w p = true ->
  bind_outcome w p = Raised (address_in_use (plat w)).
Proof.
  intros Hp Hb. unfold bind_outcome.
  assert ((p <? 0) || (65535 <? p) = false) as ->.
  { apply orb_false_iff. split; apply Z.ltb_ge; lia. }
  by rewrite Hb.
Qed.

Lemma bind_outcome_free (w : world) (p : Z) :
  0 <= p <= 65535 -> busy w p = false -> bind_outcome w p = Returned.
Proof.
  intros Hp Hb. unfold bind_outcome.
  assert ((p <? 0) || (65535 <? p) = false) as ->.
  { apply orb_false_iff. split; apply Z.ltb_ge; lia. }
  by rewrite Hb.
Qed.

(** The i-th diagnostic of a retry sequence names port [p + i] as busy
    and [p + i + 1] as the next one. *)
Lemma retry_lines_lookup (k : nat) (p : Z) (i : nat) :
  (i < k)%nat ->
  retry_lines p k !! i =
  Some ("Port " +:+ pretty (p + Z.of_nat i) +:+
        " is in use, trying port " +:+ pretty (p + Z.of_nat i + 1)).
Proof.
  revert p i. induction k as [|k IH]; intros p i Hi; [lia|].
  destruct i as [|i]; simpl retry_lines.
  - simpl. unfold in_use_line.
    by rewrite Z.add_simpl_r, Z.add_0_r.
  - rewrite lookup_cons_ne_0 by done. simpl Init.Nat.pred.
    rewrite IH by lia.
    by replace (p + 1 + Z.of_nat i) with (p + Z.of_nat (S i)) by lia.
Qed.

Lemma length_retry_lines (k : nat) (p : Z) : length (retry_lines p k) = k.
Proof. revert p. induction k as [|k IH]; intros p; simpl; [done|]. by rewrite IH. Qed.

(** Where address-in-use is errno 48, [k] busy ports in a row cost [k]
    rounds of the loop and print the [k] diagnostics in order. *)
Lemma bind_loop_busy_run (w : world) (k : nat) :
  EADDRINUSE (plat w) = 48 ->
  forall (s : state) (fuel : nat),
    pc s = Binding ->
    0 <= port s ->
    port s + Z.of_nat k <= 65536 ->
    (forall i, 0 <= i < Z.of_nat k -> busy w (port s + i) = true) ->
    bind_loop w (k + fuel) s =
    bind_loop w fuel
      (mkState (port s + Z.of_nat k) (listener s)
               (stdout s ++ retry_lines (port s) k) (extensions_map s) Binding).
Proof.
  intros H48. induction k as [|k IH]; intros s fuel Hpc Hlo Hhi Hbusy.
  - simpl. destruct s as [p l out m c]. simpl in *. subst c.
    by rewrite Z.add_0_r, app_nil_r.
  - replace (S k + fuel)%nat with (S (k + fuel)) by lia.
    rewrite bind_loop_step by done.
    rewrite bind_outcome_busy; [|lia|].
    2:{ rewrite <- (Z.add_0_r (port s)). apply Hbusy. lia. }
    unfold address_in_use, os_error. rewrite H48.
    unfold step. rewrite Hpc, handle_in_use.
    rewrite IH; simpl; [|done|lia|lia|].
    2:{ intros i Hi. replace (port s + 1 + i) with (port s + (1 + i)) by lia.
        apply Hbusy. lia. }
    f_equal. f_equal; [lia|]. by rewrite <- List.app_assoc.
Qed.

(** Where address-in-use is errno 48: if ports P, ..., P+k-1 are held by
    others and P+k is free, the loop binds P+k after printing one
    diagnostic per busy port, in increasing order, and the started line;
    any amount of fuel above [k] gives this result. *)
Lemma retry_until_free (w : world) (k fuel : nat) (s : state) :
  EADDRINUSE (plat w) = 48 ->
  pc s = Binding ->
  0 <= port s ->
  port s + Z.of_nat k <= 65535 ->
  (forall i, 0 <= i < Z.of_nat k -> busy w (port s + i) = true) ->
  busy w (port s + Z.of_nat k) = false ->
  bind_loop w (k + S fuel) s =
  mkState (port s + Z.of_nat k) (Some (port s + Z.of_nat k))
          (stdout s ++ retry_lines (port s) k ++
             [started_line (port s + Z.of_nat k)])
          (extensions_map s) Serving.
Proof.
  intros H48 Hpc Hlo Hhi Hbusy Hfree.
  rewrite bind_loop_busy_run by (done || lia).
  rewrite bind_loop_step by done. simpl port.
  rewrite bind_outcome_free by (done || lia).
  rewrite bind_loop_stops by done.
  unfold step, set_pc, print, set_listener. simpl.
  by rewrite <- List.app_assoc.
Qed.

Lemma retry_until_free_witness :
  bind_loop (mkWorld darwin (fun p => (p =? 8000) || (p =? 8001))) 5 (main [] ∅) =
  mkState 8002 (Some 8002)
          ["Port 8000 is in use, trying port 8001";
           "Port 8001 is in use, trying port 8002";
           "Server started at http://localhost:8002"]
          (extensions_map (main [] ∅)) Serving.
Proof.
  apply (retry_until_free
           (mkWorld darwin (fun p => (p =? 8000) || (p =? 8001))) 2 2 (main [] ∅));
    [reflexivity | reflexivity | vm_compute; discriminate
    | vm_compute; discriminate | | reflexivity].
  intros i Hi. simpl in *.
  assert (i = 0 \/ i = 1) as [-> | ->] by lia; reflexivity.
Defined.

(** C6, evaluated where it fails.  On Linux, with port 8000 held by
    another process and every other port free, the loop does not go on to
    8001: the first failed bind ends the process with status 1 after the
    fatal message, with no retry diagnostic and no listener, however many
    rounds the loop is given. *)
Theorem busy_start_port_on_linux_no_retry (fuel : nat) :
  let w := mkWorld linux only_8000_busy in
  let s := bind_loop w (S fuel) (main [] ∅) in
  busy w 8000 = true /\
  busy w 8001 = false /\
  pc s = Exited 1 /\
  port s = 8000 /\
  listener s = None /\
  stdout s = ["Error starting server: [Errno 98] Address already in use"].
Proof.
  cbv zeta. rewrite bind_loop_step by reflexivity.
  rewrite bind_loop_stops by discriminate.
  repeat split.
Qed.

(** Past the last port number the listener creation fails with an error
    that is not an OSError, and the process ends with status 1. *)
Lemma port_range_exhausted (w : world) (fuel : nat) (s : state) :
  pc s = Binding ->
  65535 < port s ->
  bind_loop w (S fuel) s =
  mkState (port s) (listener s)
          (stdout s ++ ["Error starting server: bind(): port must be 0-65535."])
          (extensions_map s) (Exited 1).
Proof.
  intros Hpc Hhi. rewrite bind_loop_step by done.
  unfold bind_outcome.
  assert ((port s <? 0) || (65535 <? port s) = true) as ->.
  { apply orb_true_iff. right. by apply Z.ltb_lt. }
  rewrite bind_loop_stops.
  - unfold step. by rewrite Hpc.
  - unfold step. by rewrite Hpc.
Qed.

(** ** The diagnostics of any run *)

Lemma retry_lines_snoc (n : nat) (p : Z) :
  retry_lines p (S n) =
  (retry_lines p n ++ [in_use_line (p + Z.of_nat n + 1)])%list.
Proof.
  revert p. induction n as [|n IH]; intros p.
  - simpl. by rewrite Z.add_0_r.
  - change (retry_lines p (S (S n)))
      with (in_use_line (p + 1) :: retry_lines (p + 1) (S n)).
    rewrite IH.
    by replace (p + Z.of_nat (S n) + 1) with (p + 1 + Z.of_nat n + 1) by lia.
Qed.

Lemma in_use_lines_app (out : list string) (line : string) :
  in_use_lines (out ++ [line]) =
  (in_use_lines out ++ (if is_in_use_line line then [line] else []))%list.
Proof. unfold in_use_lines. by rewrite List.filter_app. Qed.

Lemma is_in_use_line_in_use (p : Z) : is_in_use_line (in_use_line p) = true.
Proof.
  unfold is_in_use_line, in_use_line. cbn.
  by destruct (pretty (p - 1) +:+ " is in use, trying port " +:+ pretty p).
Qed.

Lemma is_in_use_line_started (p : Z) : is_in_use_line (started_line p) = false.
Proof. reflexivity. Qed.

Lemma is_in_use_line_error (e : exn) : is_in_use_line (error_line e) = false.
Proof. reflexivity. Qed.

Lemma is_in_use_line_shutdown : is_in_use_line shutdown_line = false.
Proof. reflexivity. Qed.

(** Whatever the outcomes of the library calls are, the retry diagnostics
    printed since [start_server p] began are those of the ports [p],
    [p + 1], ..., [port - 1], each once and in this order, where [port] is
    the current value of the variable: no port between [p] and the
    current one is skipped. *)
Lemma diagnostics_consecutive
    (p : Z) (host_map : gmap string string) (os : list outcome) :
  let s := run os (start_server p (boot host_map)) in
  p <= port s /\
  in_use_lines (stdout s) = retry_lines p (Z.to_nat (port s - p)).
Proof.
  cbv zeta. induction os as [|o os IH] using rev_ind.
  - simpl. split; [lia|]. by rewrite Z.sub_diag.
  - rewrite run_app, run_cons, run_nil.
    destruct IH as [Hle Hout].
    set (s := run os (start_server p (boot host_map))) in *.
    assert (Hkeep : forall line, is_in_use_line line = false ->
              in_use_lines (stdout s ++ [line]) =
              retry_lines p (Z.to_nat (port s - p))).
    { intros line Hline. by rewrite in_use_lines_app, Hline, app_nil_r. }
    assert (Hretry : forall l,
              p <= port (handle_retry l s) /\
              in_use_lines (stdout (handle_retry l s)) =
              retry_lines p (Z.to_nat (port (handle_retry l s) - p))).
    { intros l. unfold handle_retry. simpl. split; [lia|].
      rewrite in_use_lines_app, is_in_use_line_in_use, Hout.
      replace (Z.to_nat (port s + 1 - p)) with (S (Z.to_nat (port s - p))) by lia.
      rewrite retry_lines_snoc.
      by replace (p + Z.of_nat (Z.to_nat (port s - p)) + 1)
        with (port s + 1) by lia. }
    unfold step. destruct (pc s) eqn:Hpc; [| |done|done].
    + destruct o as [|[errno text| |text]].
      * simpl. split; [done|]. apply Hkeep, is_in_use_line_started.
      * unfold handle, inner_except. destruct (errno_is_48 errno).
        -- apply (Hretry (listener s)).
        -- simpl. split; [done|]. apply Hkeep, is_in_use_line_error.
      * simpl. split; [done|]. apply Hkeep, is_in_use_line_shutdown.
      * simpl. split; [done|]. apply Hkeep, is_in_use_line_error.
    + destruct o as [|[errno text| |text]].
      * done.
      * unfold handle, inner_except. destruct (errno_is_48 errno).
        -- apply (Hretry None).
        -- simpl. split; [done|]. apply Hkeep, is_in_use_line_error.
      * simpl. split; [done|]. apply Hkeep, is_in_use_line_shutdown.
      * simpl. split; [done|]. apply Hkeep, is_in_use_line_error.
Qed.

(** No exception leaves [start_server]: the process never ends with a
    traceback. *)
Lemma never_crashes
    (p : Z) (host_map : gmap string string) (os : list outcome) (e : exn) :
  pc (run os (start_server p (boot host_map))) <> Crashed e.
Proof.
  induction os as [|o os IH] using rev_ind; [done|].
  rewrite run_app, run_cons, run_nil.
  set (s := run os (start_server p (boot host_map))) in *.
  unfold step. destruct (pc s) eqn:Hpc.
  - destruct o; [done | apply handle_never_crashes].
  - destruct o; [done | apply handle_never_crashes].
  - by rewrite Hpc.
  - by rewrite Hpc.
Qed.

(** Every port the program started from [main] ever holds, tries or
    binds is at least 8000. *)
Lemma ports_from_main (argv : list string) (host_map : gmap string string)
    (os : list outcome) :
  8000 <= port (run os (main argv host_map)).
Proof. apply (diagnostics_consecutive 8000 host_map os). Qed.

(** * Further properties of [start_server] *)

(** ** Retrying *)

Lemma errno_48_retries_witness :
  step (Raised (os_error 48 "Address already in use")) (main [] ∅) =
  mkState 8001 None ["Port 8000 is in use, trying port 8001"]
          (extensions_map (main [] ∅)) Binding.
Proof.
  apply (errno_48_retries (main [] ∅) "[Errno 48] Address already in use").
  reflexivity.
Defined.

Lemma run_failures_48 (k : nat) (text : string) :
  forall s : state,
    pc s = Binding ->
    run (failures_48 k text) s =
    mkState (port s + Z.of_nat k) (listener s)
            (stdout s ++ retry_lines (port s) k) (extensions_map s) Binding.
Proof.
  induction k as [|k IH]; intros s Hpc.
  - destruct s as [p l out m c]. simpl in *. subst c.
    by rewrite Z.add_0_r, app_nil_r.
  - change (failures_48 (S k) text)
      with (Raised (OSError (Some 48) text) :: failures_48 k text).
    rewrite run_cons. unfold step at 1. rewrite Hpc, handle_in_use.
    rewrite IH by done. simpl.
    f_equal; [lia|]. by rewrite <- List.app_assoc.
Qed.

(** X2: [k] listener creations that fail with errno 48 followed by one
    that succeeds leave the server serving on the start port plus [k],
    having printed the [k] retry diagnostics in order and then the started
    line of the port bound, and nothing else. *)
Theorem retries_then_binds (k : nat) (text : string) (s : state) :
  pc s = Binding ->
  run (failures_48 k text ++ [Returned]) s =
  mkState (port s + Z.of_nat k) (Some (port s + Z.of_nat k))
          (stdout s ++ retry_lines (port s) k ++
             [started_line (port s + Z.of_nat k)])
          (extensions_map s) Serving.
Proof.
  intros Hpc. rewrite run_app, run_failures_48 by done.
  rewrite run_cons, run_nil. unfold step, set_pc, print, set_listener. simpl.
  by rewrite <- List.app_assoc.
Qed.

Lemma retries_then_binds_witness :
  run (failures_48 2 "[Errno 48] Address already in use" ++ [Returned])
      (main [] ∅) =
  mkState 8002 (Some 8002)
          ["Port 8000 is in use, trying port 8001";
           "Port 8001 is in use, trying port 8002";
           "Server started at http://localhost:8002"]
          (extensions_map (main [] ∅)) Serving.
Proof.
  apply (retries_then_binds 2 "[Errno 48] Address already in use" (main [] ∅)).
  reflexivity.
Defined.

(** X3: the loop has no bound of its own.  After any number [k] of
    listener creations that fail with errno 48 the process is still at
    the head of the loop, about to try the start port plus [k], also when
    that is above 65535; it has not exited and has printed no error
    line. *)
Theorem retry_has_no_bound (k : nat) (text : string) (s : state) :
  pc s = Binding ->
  pc (run (failures_48 k text) s) = Binding /\
  port (run (failures_48 k text) s) = port s + Z.of_nat k /\
  in_use_lines (stdout (run (failures_48 k text) s)) =
    (in_use_lines (stdout s) ++ retry_lines (port s) k)%list.
Proof.
  intros Hpc. rewrite run_failures_48 by done. simpl.
  split; [done|]. split; [done|].
  unfold in_use_lines. rewrite List.filter_app. f_equal.
  clear Hpc. generalize (port s). induction k as [|k IH]; intros p; [done|].
  simpl retry_lines. simpl List.filter.
  fold (is_in_use_line (in_use_line (p + 1))).
  by rewrite is_in_use_line_in_use, IH.
Qed.

Lemma retry_has_no_bound_witness :
  pc (run (failures_48 3 "busy") (start_server 65534 (boot ∅))) = Binding /\
  port (run (failures_48 3 "busy") (start_server 65534 (boot ∅))) = 65537.
Proof.
  destruct (retry_has_no_bound 3 "busy" (start_server 65534 (boot ∅)) eq_refl)
    as (H1 & H2 & _).
  split; [exact H1 | exact H2].
Defined.

(** X4: whatever the library calls do, the port never goes below the
    start port [p], and the retry diagnostics printed so far are exactly
    those of the ports [p], [p + 1], ..., up to the one before the current
    port, each once and in increasing order. *)
Theorem retry_diagnostics_have_no_gaps
    (p : Z) (host_map : gmap string string) (os : list outcome) :
  p <= port (run os (start_server p (boot host_map))) /\
  in_use_lines (stdout (run os (start_server p (boot host_map)))) =
    retry_lines p (Z.to_nat (port (run os (start_server p (boot host_map))) - p)) /\
  forall i : nat,
    (i < Z.to_nat (port (run os (start_server p (boot host_map))) - p))%nat ->
    in_use_lines (stdout (run os (start_server p (boot host_map)))) !! i =
    Some ("Port " +:+ pretty (p + Z.of_nat i) +:+
          " is in use, trying port " +:+ pretty (p + Z.of_nat i + 1)).
Proof.
  destruct (diagnostics_consecutive p host_map os) as [Hle Hout].
  split; [exact Hle|]. split; [exact Hout|].
  intros i Hi. rewrite Hout. by apply retry_lines_lookup.
Qed.

(** ** Failures and interrupts outside the bind *)

(** X6: the handlers guard [serve_forever] as well.  An exception (a
    subclass of [Exception]) that leaves [serve_forever] and is not an
    OSError with errno 48 closes the listener, prints "Error starting
    server: <message>" although the server had started, and ends the
    process with status 1. *)
Theorem serving_failure_is_fatal (s : state) (e : exn) :
  pc s = Serving ->
  is_Exception e = true ->
  (forall text, e <> OSError (Some 48) text) ->
  step (Raised e) s =
  mkState (port s) None
          (stdout s ++ ["Error starting server: " +:+ str e])
          (extensions_map s) (Exited 1).
Proof.
  intros Hpc Hexc Hne. unfold step. rewrite Hpc.
  by rewrite handle_fatal.
Qed.

Lemma serving_failure_is_fatal_witness :
  run [Returned; Raised (os_error 9 "Bad file descriptor")] (main [] ∅) =
  mkState 8000 None
          ["Server started at http://localhost:8000";
           "Error starting server: [Errno 9] Bad file descriptor"]
          (extensions_map (main [] ∅)) (Exited 1).
Proof.
  apply (serving_failure_is_fatal (step Returned (main [] ∅))
           (os_error 9 "Bad file descriptor"));
    [reflexivity | reflexivity | discriminate].
Defined.

(** X7: an OSError with errno 48 that leaves [serve_forever] is taken
    for a busy port too: the listener is closed, the port goes up by one,
    the retry diagnostic is printed and the loop tries the next port. *)
Theorem errno_48_while_serving_moves_on (s : state) (text : string) :
  pc s = Serving ->
  step (Raised (OSError (Some 48) text)) s =
  mkState (port s + 1) None
          (stdout s ++ ["Port " +:+ pretty (port s) +:+
                        " is in use, trying port " +:+ pretty (port s + 1)])
          (extensions_map s) Binding.
Proof.
  intros Hpc. unfold step. rewrite Hpc, handle_in_use.
  unfold in_use_line. simpl. by rewrite Z.add_simpl_r.
Qed.

Lemma errno_48_while_serving_moves_on_witness :
  run [Returned; Raised (OSError (Some 48) "[Errno 48] x")] (main [] ∅) =
  mkState 8001 None
          ["Server started at http://localhost:8000";
           "Port 8000 is in use, trying port 8001"]
          (extensions_map (main [] ∅)) Binding.
Proof.
  apply (errno_48_while_serving_moves_on (step Returned (main [] ∅))
           "[Errno 48] x").
  reflexivity.
Defined.

(** X8: an interrupt that arrives before any listener exists, during the
    listener creation, is handled like one that arrives while serving: the
    shutdown line is printed and the process ends with status 0, without
    a started line and without an error line. *)
Theorem interrupt_before_bind (s : state) :
  pc s = Binding ->
  step (Raised KeyboardInterrupt) s =
  mkState (port s) (listener s)
          (stdout s ++ [String (Ascii.ascii_of_nat 10) "Shutting down server..."])
          (extensions_map s) (Exited 0).
Proof. intros Hpc. unfold step. by rewrite Hpc. Qed.

Lemma interrupt_before_bind_witness :
  step (Raised KeyboardInterrupt) (main [] ∅) =
  mkState 8000 None
          [String (Ascii.ascii_of_nat 10) "Shutting down server..."]
          (extensions_map (main [] ∅)) (Exited 0).
Proof. apply (interrupt_before_bind (main [] ∅)). reflexivity. Defined.

(** X9: if [serve_forever] returns, the [with] block closes the listener
    without printing anything and the loop goes round again with the port
    unchanged: the next successful listener creation is on the same port
    and prints its started line a second time. *)
Theorem serve_return_rebinds_same_port (s : state) :
  pc s = Serving ->
  step Returned s =
    mkState (port s) None (stdout s) (extensions_map s) Binding /\
  run [Returned; Returned] s =
    mkState (port s) (Some (port s))
            (stdout s ++ ["Server started at http://localhost:" +:+ pretty (port s)])
            (extensions_map s) Serving.
Proof.
  intros Hpc.
  assert (H : step Returned s =
              mkState (port s) None (stdout s) (extensions_map s) Binding).
  { unfold step. by rewrite Hpc. }
  split; [exact H|].
  rewrite run_cons, H. reflexivity.
Qed.

Lemma serve_return_rebinds_same_port_witness :
  run [Returned; Returned; Returned] (main [] ∅) =
  mkState 8000 (Some 8000)
          ["Server started at http://localhost:8000";
           "Server started at http://localhost:8000"]
          (extensions_map (main [] ∅)) Serving.
Proof.
  apply (proj2 (serve_return_rebinds_same_port (step Returned (main [] ∅)) eq_refl)).
Defined.

(** ** What the output and the exit status tell *)

Lemma last_snoc_line (out : list string) (line : string) :
  last (out ++ [line]) = Some line.
Proof. apply last_snoc. Qed.

Lemma handle_announced (e : exn) (s : state) : announced (handle e s).
Proof.
  destruct e as [errno text| |text].
  - unfold handle, inner_except. destruct (errno_is_48 errno); [exact I|].
    right. split; [done|]. exists (OSError errno text).
    split; [done|]. apply last_snoc_line.
  - left. split; [done|]. apply last_snoc_line.
  - right. split; [done|]. exists (OtherException text).
    split; [done|]. apply last_snoc_line.
Qed.

Lemma step_announced (o : outcome) (s : state) :
  announced s -> announced (step o s).
Proof.
  intros Hs. unfold step. destruct (pc s) eqn:Hpc.
  - destruct o; [apply last_snoc_line | apply handle_announced].
  - destruct o; [exact I | apply handle_announced].
  - exact Hs.
  - exact Hs.
Qed.

Lemma run_announced (os : list outcome) (s : state) :
  announced s -> announced (run os s).
Proof.
  revert s. induction os as [|o os IH]; intros s Hs; [done|].
  rewrite run_cons. by apply IH, step_announced.
Qed.

Lemma start_server_announced (p : Z) (s : state) : announced (start_server p s).
Proof. exact I. Qed.

(** X5: in every run the process is at the head of the loop, serving, or
    has exited with status 0 or 1.  No exception of the classes the
    library calls raise (OSError, other subclasses of [Exception],
    KeyboardInterrupt) leaves [start_server], and no other exit status
    occurs. *)
Theorem only_exits_0_or_1 (p : Z) (s0 : state) (os : list outcome) :
  pc (run os (start_server p s0)) = Binding \/
  pc (run os (start_server p s0)) = Serving \/
  pc (run os (start_server p s0)) = Exited 0 \/
  pc (run os (start_server p s0)) = Exited 1.
Proof.
  pose proof (run_announced os _ (start_server_announced p s0)) as H.
  unfold announced in H.
  destruct (pc (run os (start_server p s0))) as [| |status|e]; auto.
  - destruct H as [[-> _] | [-> _]]; auto.
  - destruct H.
Qed.

(** X10: the exit status can be read off the last line printed.  A
    process that has exited with status 0 printed the shutdown line last;
    one that has exited with status 1 printed last the line "Error
    starting server: <message>" of an exception that is a subclass of
    [Exception]. *)
Theorem exit_status_matches_last_line
    (p : Z) (s0 : state) (os : list outcome) (status : Z) :
  pc (run os (start_server p s0)) = Exited status ->
  (status = 0 /\
   last (stdout (run os (start_server p s0))) =
     Some (String (Ascii.ascii_of_nat 10) "Shutting down server...")) \/
  (status = 1 /\
   exists e, is_Exception e = true /\
     last (stdout (run os (start_server p s0))) =
       Some ("Error starting server: " +:+ str e)).
Proof.
  intros Hpc.
  pose proof (run_announced os _ (start_server_announced p s0)) as H.
  unfold announced in H. rewrite Hpc in H. exact H.
Qed.

Lemma exit_status_matches_last_line_witness :
  (1 = 0 /\
   last (stdout (run [Raised permission_denied] (start_server 80 (boot ∅)))) =
     Some (String (Ascii.ascii_of_nat 10) "Shutting down server...")) \/
  (1 = 1 /\
   exists e, is_Exception e = true /\
     last (stdout (run [Raised permission_denied] (start_server 80 (boot ∅)))) =
       Some ("Error starting server: " +:+ str e)).
Proof.
  apply (exit_status_matches_last_line 80 (boot ∅) [Raised permission_denied] 1).
  reflexivity.
Defined.

(** X11: whenever the server is serving, the last line printed is the
    started line of the port the listener is open on, which is the
    current value of [port]: the address a user reads off the terminal is
    the one being served. *)
Theorem serving_port_is_the_announced_one
    (p : Z) (host_map : gmap string string) (os : list outcome) :
  pc (run os (start_server p (boot host_map))) = Serving ->
  last (stdout (run os (start_server p (boot host_map)))) =
    Some ("Server started at http://localhost:" +:+
          pretty (port (run os (start_server p (boot host_map))))) /\
  listener (run os (start_server p (boot host_map))) =
    Some (port (run os (start_server p (boot host_map)))).
Proof.
  intros Hpc. split.
  - pose proof (run_announced os _ (start_server_announced p (boot host_map))) as H.
    unfold announced in H. by rewrite Hpc in H.
  - assert (Hco : coherent (run os (start_server p (boot host_map)))).
    { apply run_coherent, start_server_coherent. reflexivity. }
    unfold coherent in Hco. by rewrite Hpc in Hco.
Qed.

Lemma serving_port_is_the_announced_one_witness :
  last (stdout (run [Raised (os_error 48 "Address already in use"); Returned]
                    (start_server 8000 (boot ∅)))) =
    Some "Server started at http://localhost:8001" /\
  listener (run [Raised (os_error 48 "Address already in use"); Returned]
                (start_server 8000 (boot ∅))) = Some 8001.
Proof.
  apply (serving_port_is_the_announced_one 8000 ∅
           [Raised (os_error 48 "Address already in use"); Returned]).
  reflexivity.
Defined.

(** ** Configuring the handler again *)

(** X12: the configuration is idempotent.  Calling [start_server] again
    in the same process, after any run of an earlier call and with any
    port, leaves the handler class's table as the first call left it. *)
Theorem configuring_twice_changes_nothing
    (p1 p2 : Z) (s0 : state) (os : list outcome) :
  extensions_map (start_server p2 (run os (start_server p1 s0))) =
  extensions_map (start_server p1 s0).
Proof.
  rewrite !start_server_extensions_map, run_extensions_map,
    start_server_extensions_map.
  apply insert_insert_eq.
Qed.

(** X13: the configuration adds the key ".js" to the table and neither
    adds nor removes any other: the extensions known afterwards are those
    known before together with ".js". *)
Theorem configuration_adds_only_js_key (p : Z) (s0 : state) :
  dom (extensions_map (start_server p s0)) =
  ({[ ".js" ]} ∪ dom (extensions_map s0) : gset string).
Proof. rewrite start_server_extensions_map. apply dom_insert_L. Qed.
